(** * LinkPlay media player: the state reconciliation of
      homeassistant/components/media_player/linkplay.py

    The development embeds [LinkPlayDevice] (its attributes, its [update]
    method, the track heuristics, the two enrichment helpers, the control
    commands and the two public properties that convert a stored value)
    together with [LinkPlayRestData.call] and [LastFMRestData.call].

    Python values are modelled as they reach the code:
    - a [str] is the list of its Unicode code points, so that [len], indexing
      and [find] count what Python counts;
    - a JSON document is a [pyval];
    - a float is a binary64 number of [SpecFloat], so that the true division
      [int(x) / 1000] and [round(volume * MAX_VOL)] are the correctly rounded
      operations Python performs;
    - an exception is a value of [exn]; a method is a function on the
      machine state that returns [Ok v] or [Raise e] together with the state
      reached at that point (attribute writes made before a raise persist).

    The collaborators the module does not define (the HTTP session,
    [urllib.request.urlretrieve], [eyed3.load], [utcnow], [json.loads], the
    [str] of a float, the constant [MEDIA_TYPE_MUSIC]) are parameters: a
    [World] gives the answers of the impure ones for one method call, a
    [Lib] the pure library functions and the constant. *)

From Stdlib Require Import ZArith NArith List String Ascii Bool Lia.
From Stdlib Require Import SpecFloat DecimalString.
Import ListNotations.
Open Scope Z_scope.

(* ================================================================== *)
(** ** Python strings *)

Module PyStr.

(** A [str]: its code points, in order. *)
Definition pystr := list N.

(** The [str] denoted by a literal of the source (all of them ASCII). *)
Definition str (s : string) : pystr :=
  map N_of_ascii (list_ascii_of_string s).

Fixpoint eqb (a b : pystr) : bool :=
  match a, b with
  | [], [] => true
  | x :: a', y :: b' => N.eqb x y && eqb a' b'
  | _, _ => false
  end.

(** [len(s)] *)
Definition len (s : pystr) : Z := Z.of_nat (List.length s).

(** [s.startswith(sub)] as a plain prefix test, used by [find]. *)
Fixpoint prefixb (sub s : pystr) : bool :=
  match sub, s with
  | [], _ => true
  | x :: sub', y :: s' => N.eqb x y && prefixb sub' s'
  | _ :: _, [] => false
  end.

(** First index [i >= 0] of [s] at which [sub] occurs, offset by [base]. *)
Fixpoint find_from (sub s : pystr) (base : Z) : Z :=
  if prefixb sub s then base
  else match s with
       | [] => -1
       | _ :: s' => find_from sub s' (base + 1)
       end.

(** [s.find(sub, start)]: a negative [start] counts from the end and is
    clipped at 0; a [start] beyond the end finds nothing. *)
Definition find (s sub : pystr) (start : Z) : Z :=
  let n := len s in
  let start := if start <? 0 then Z.max 0 (start + n) else start in
  if n <? start then -1
  else find_from sub (skipn (Z.to_nat start) s) start.

(** [s.lower()] on the ASCII letters; other code points are kept. *)
Definition lower (s : pystr) : pystr :=
  map (fun c => if (65 <=? c)%N && (c <=? 90)%N then (c + 32)%N else c) s.

(** [str(n)] for an [int]. *)
Definition of_Z (n : Z) : pystr :=
  str (NilZero.string_of_int (Z.to_int n)).

(** [s.zfill(width)]: zeros are inserted after a leading sign. *)
Definition zfill (s : pystr) (width : nat) : pystr :=
  let pad := repeat 48%N (width - List.length s) in
  match s with
  | c :: r => if N.eqb c 43 || N.eqb c 45 then c :: pad ++ r else pad ++ s
  | [] => pad
  end.

(** Suffix test used to state what [find] computes in [_is_playing_mp3]. *)
Definition endswith (s suffix : pystr) : Prop :=
  exists front, s = front ++ suffix.

End PyStr.
Export PyStr(pystr, str).

(* ================================================================== *)
(** ** Exceptions, results, JSON values *)

Inductive exn : Type :=
| KeyError
| IndexError
| TypeError
| ValueError          (* also its subclasses JSONDecodeError, UnicodeDecodeError *)
| OverflowError
| ZeroDivisionError
| AttributeError
| URLError            (* urllib.error.URLError and its subclasses *)
| ExternalError (name : string).  (* any other exception of a collaborator *)

Inductive result (A : Type) : Type :=
| Ok (a : A)
| Raise (e : exn).
Arguments Ok {A} a.
Arguments Raise {A} e.

(** What [json.loads] can return.  A dict is the list of its items in
    insertion order; lookup takes the first item with the key. *)
Inductive pyval : Type :=
| PNone
| PBool (b : bool)
| PInt (z : Z)
| PFloat (f : spec_float)
| PStr (s : pystr)
| PList (l : list pyval)
| PDict (d : list (pystr * pyval)).

Definition of_optstr (o : option pystr) : pyval :=
  match o with Some s => PStr s | None => PNone end.

(** [d[k]] on the association list of a dict. *)
Fixpoint assoc {V : Type} (k : pystr) (d : list (pystr * V)) : option V :=
  match d with
  | [] => None
  | (k', v) :: d' => if PyStr.eqb k k' then Some v else assoc k d'
  end.

Module PyNum.

Definition prec : Z := 53.
Definition emax : Z := 1024.

(** An [int] as the float it converts to exactly (mantissa not
    normalised; the operations below round their result). *)
Definition SF_of_Z (n : Z) : spec_float :=
  match n with
  | Z0 => S754_zero false
  | Zpos p => S754_finite false p 0
  | Zneg p => S754_finite true p 0
  end.

(** [a / b] on two [int]s: the correctly rounded quotient. *)
Definition truediv (a b : Z) : result spec_float :=
  if b =? 0 then Raise ZeroDivisionError
  else match SFdiv prec emax (SF_of_Z a) (SF_of_Z b) with
       | S754_infinity _ => Raise OverflowError
       | q => Ok q
       end.

(** [int(f)] on a float: truncation towards zero. *)
Definition int_of_float (f : spec_float) : result Z :=
  match f with
  | S754_nan => Raise ValueError
  | S754_infinity _ => Raise OverflowError
  | S754_zero _ => Ok 0
  | S754_finite s m e =>
      let a := if 0 <=? e then Z.shiftl (Zpos m) e
               else Z.shiftr (Zpos m) (- e) in
      Ok (if s then - a else a)
  end.

(** [round(f)] on a float: to the nearest integer, ties to even. *)
Definition round (f : spec_float) : result Z :=
  match f with
  | S754_nan => Raise ValueError
  | S754_infinity _ => Raise OverflowError
  | S754_zero _ => Ok 0
  | S754_finite s m e =>
      let a :=
        if 0 <=? e then Z.shiftl (Zpos m) e
        else
          let d := Z.shiftl 1 (- e) in
          let q := Zpos m / d in
          let r := Zpos m mod d in
          match 2 * r ?= d with
          | Lt => q
          | Gt => q + 1
          | Eq => if Z.even q then q else q + 1
          end in
      Ok (if s then - a else a)
  end.

(** Code points [str.strip] and [int] treat as white space. *)
Definition is_space (c : N) : bool :=
  ((9 <=? c) && (c <=? 13) || (28 <=? c) && (c <=? 32)
   || (c =? 133) || (c =? 160) || (c =? 5760)
   || (8192 <=? c) && (c <=? 8202) || (c =? 8232) || (c =? 8233)
   || (c =? 8239) || (c =? 8287) || (c =? 12288))%N.

Fixpoint lstrip (s : pystr) : pystr :=
  match s with
  | c :: r => if is_space c then lstrip r else s
  | [] => []
  end.

Definition strip (s : pystr) : pystr := rev (lstrip (rev (lstrip s))).

(** Decimal digits with single underscores between them. *)
Fixpoint digits (s : pystr) (acc : Z) (after_digit : bool) : option Z :=
  match s with
  | [] => if after_digit then Some acc else None
  | c :: r =>
      if ((48 <=? c) && (c <=? 57))%N
      then digits r (10 * acc + (Z.of_N c - 48)) true
      else if (c =? 95)%N && after_digit then digits r acc false
      else None
  end.

(** [int(s)] on a [str], base 10 (ASCII digits; the other decimal digits
    of Unicode are read as invalid). *)
Definition int_of_str (s : pystr) : result Z :=
  let body := strip s in
  let '(neg, ds) :=
    match body with
    | c :: r => if (c =? 45)%N then (true, r)
                else if (c =? 43)%N then (false, r) else (false, body)
    | [] => (false, body)
    end in
  match digits ds 0 false with
  | Some n => Ok (if neg then - n else n)
  | None => Raise ValueError
  end.

(** [int(v)] *)
Definition int (v : pyval) : result Z :=
  match v with
  | PBool b => Ok (if b then 1 else 0)
  | PInt z => Ok z
  | PFloat f => int_of_float f
  | PStr s => int_of_str s
  | PNone | PList _ | PDict _ => Raise TypeError
  end.

End PyNum.

(* ================================================================== *)
(** ** Subscripts, constant tables, hex fields *)

Module PyOps.

(** [v[k]] with a [str] key. *)
Definition getitem (v : pyval) (k : pystr) : result pyval :=
  match v with
  | PDict d => match assoc k d with Some x => Ok x | None => Raise KeyError end
  | _ => Raise TypeError
  end.

(** [v[i]] with an [int] index.  The keys of a JSON object are [str]s, so
    an [int] is never a key of a [PDict]. *)
Definition getitem_int (v : pyval) (i : Z) : result pyval :=
  match v with
  | PList l =>
      let j := if i <? 0 then i + Z.of_nat (List.length l) else i in
      if j <? 0 then Raise IndexError
      else match nth_error l (Z.to_nat j) with
           | Some x => Ok x
           | None => Raise IndexError
           end
  | PStr s =>
      let j := if i <? 0 then i + PyStr.len s else i in
      if j <? 0 then Raise IndexError
      else match nth_error s (Z.to_nat j) with
           | Some c => Ok (PStr [c])
           | None => Raise IndexError
           end
  | PDict _ => Raise KeyError
  | _ => Raise TypeError
  end.

(** [table.get(key, default)] on a constant dict with [str] keys: a list
    or dict key is unhashable, any other non-[str] key is absent. *)
Definition dict_get {V : Type} (table : list (pystr * V)) (key : pyval)
    (default : V) : result V :=
  match key with
  | PStr k => Ok (match assoc k table with Some x => x | None => default end)
  | PList _ | PDict _ => Raise TypeError
  | _ => Ok default
  end.

(** [v == s] for a [str] literal [s]. *)
Definition eq_str (v : pyval) (s : pystr) : bool :=
  match v with PStr t => PyStr.eqb t s | _ => false end.

(** [o == s] for an attribute [o] that is [None] or a [str]. *)
Definition optstr_eq (o : option pystr) (s : pystr) : bool :=
  match o with Some t => PyStr.eqb t s | None => false end.

(** [v != o] where [o] is [None] or a [str]. *)
Definition ne_optstr (v : pyval) (o : option pystr) : bool :=
  match v, o with
  | PNone, None => false
  | PStr t, Some s => negb (PyStr.eqb t s)
  | _, _ => true
  end.

Definition hexval (c : N) : option N :=
  (if (48 <=? c) && (c <=? 57) then Some (c - 48)
   else if (97 <=? c) && (c <=? 102) then Some (c - 87)
   else if (65 <=? c) && (c <=? 70) then Some (c - 55)
   else None)%N.

Definition is_ascii_space (c : N) : bool :=
  ((9 <=? c) && (c <=? 13) || (c =? 32))%N.

(** [bytearray.fromhex(s)]: two adjacent hex digits per byte, ASCII white
    space skipped between bytes.  [top] is the pending high digit. *)
Fixpoint fromhex (s : pystr) (top : option N) : option (list N) :=
  match s with
  | [] => match top with None => Some [] | Some _ => None end
  | c :: r =>
      match top with
      | None =>
          if is_ascii_space c then fromhex r None
          else match hexval c with
               | Some h => fromhex r (Some h)
               | None => None
               end
      | Some h =>
          match hexval c with
          | Some l => option_map (cons (16 * h + l)%N) (fromhex r None)
          | None => None
          end
      end
  end.

(** [bytes.decode()]: strict UTF-8.  [need] continuation bytes are still
    expected, the next one within [lo..hi]; [acc] holds the bits read. *)
Fixpoint utf8 (bs : list N) (need : nat) (acc lo hi : N) : option pystr :=
  match bs with
  | [] => match need with O => Some [] | S _ => None end
  | b :: r =>
      match need with
      | O =>
          (if b <? 128 then option_map (cons b) (utf8 r 0 0 0 0)
           else if (194 <=? b) && (b <=? 223) then utf8 r 1 (b - 192) 128 191
           else if b =? 224 then utf8 r 2 0 160 191
           else if b =? 237 then utf8 r 2 13 128 159
           else if (225 <=? b) && (b <=? 239) then utf8 r 2 (b - 224) 128 191
           else if b =? 240 then utf8 r 3 0 144 191
           else if b =? 244 then utf8 r 3 4 128 143
           else if (241 <=? b) && (b <=? 243) then utf8 r 3 (b - 240) 128 191
           else None)%N
      | S n =>
          (if (lo <=? b) && (b <=? hi) then
             let acc' := acc * 64 + (b - 128) in
             match n with
             | O => option_map (cons acc') (utf8 r 0 0 0 0)
             | S _ => utf8 r n acc' 128 191
             end
           else None)%N
      end
  end.

(** [str(bytearray.fromhex(v).decode())] *)
Definition hex_decode (v : pyval) : result pystr :=
  match v with
  | PStr s =>
      match fromhex s None with
      | Some bs => match utf8 bs 0 0 0 0 with
                   | Some t => Ok t
                   | None => Raise ValueError
                   end
      | None => Raise ValueError
      end
  | _ => Raise TypeError
  end.

(** ["{0}".format(o)] for an attribute that is [None] or a [str]. *)
Definition format_opt (o : option pystr) : pystr :=
  match o with Some s => s | None => str "None" end.

End PyOps.

(* ================================================================== *)
(** ** The collaborators *)

(** Modelled from the spec: the constants [STATE_UNKNOWN], [STATE_PAUSED]
    and [STATE_PLAYING] of [homeassistant.const], which the module imports;
    the spec names the playback status the enumeration Playing, Paused,
    Unknown. *)
Inductive ha_state : Type := STATE_UNKNOWN | STATE_PAUSED | STATE_PLAYING.

(** What [audiofile.tag] carries, as [_update_from_id3] reads it. *)
Record id3tag : Type := mk_tag {
  tag_title : option pystr;
  tag_artist : option pystr;
  tag_album : option pystr
}.

(** The pure library functions the module calls. *)
Record Lib : Type := mk_lib {
  (** [json.loads]: [None] when it raises [ValueError]. *)
  json_loads : pystr -> option pyval;
  (** [str(f)] for a float. *)
  float_repr : spec_float -> pystr;
  (** The constant [MEDIA_TYPE_MUSIC] of the media player component. *)
  MEDIA_TYPE_MUSIC : pystr
}.

(** The answers of the outside world during one method call. *)
Record World : Type := mk_world {
  (** [requests.Session().send] of a GET to the URL: the response text, or
      [None] when it raises a [RequestException].  Preparing the request is
      taken to succeed. *)
  send : pystr -> option pystr;
  (** [urllib.request.urlretrieve(uri)]: the local file name, or a raise. *)
  urlretrieve : pystr -> result pystr;
  (** [eyed3.load(filename)]: a raise, [None] (not an audio file), an audio
      file whose [tag] is [None], or an audio file with a tag. *)
  eyed3_load : pystr -> result (option (option id3tag));
  (** [utcnow()] *)
  utcnow : Z
}.

(** What a method does to the outside, in order. *)
Inductive level : Type := DEBUG | WARNING | ERROR.

Inductive event : Type :=
| HttpGet (url : pystr)
| UrlRetrieve (uri : pystr)
| Eyed3Load (filename : pystr)
| Log (lvl : level) (fmt : string).   (* the format string; arguments omitted *)

(* ================================================================== *)
(** ** The device object *)

Definition MAX_VOL : Z := 100.
Definition LASTFM_API_BASE : pystr :=
  str "http://ws.audioscrobbler.com/2.0/?method=".

Definition SOUND_MODES : list (pystr * pystr) :=
  [(str "0", str "Normal"); (str "1", str "Classic"); (str "2", str "Pop");
   (str "3", str "Jazz"); (str "4", str "Vocal")].

Definition SOURCES_MAP : list (pystr * pystr) :=
  [(str "0", str "WiFi"); (str "10", str "WiFi"); (str "31", str "WiFi");
   (str "40", str "Line-in"); (str "41", str "Bluetooth");
   (str "43", str "Optical")].

(** The attributes the spec calls the PlayerState. *)
Record PlayerState : Type := mk_ps {
  _state : ha_state;
  _volume : pyval;
  _muted : pyval;
  _source : option pystr;
  _sound_mode : option pystr;
  _shuffle : option bool;
  _seek_position : option Z;
  _duration : option Z;
  _position_updated_at : option Z;
  _media_title : option pystr;
  _media_artist : option pystr;
  _media_album : option pystr;
  _media_image_url : pyval;
  _media_uri : option pystr
}.

(** A [LinkPlayDevice]: configuration, PlayerState, the [data] attribute of
    its two REST helpers, and the first-update flag. *)
Record LinkPlayDevice : Type := mk_dev {
  _name : pystr;
  _host : pystr;
  _lfmapi : option pystr;          (* the API key of [_lfmapi], if any *)
  ps : PlayerState;
  _lpapi_data : option pystr;
  _lfmapi_data : option pystr;
  _first_update : bool
}.

(** [LinkPlayDevice.__init__] *)
Definition init (name host : pystr) (lfm_api_key : option pystr)
    : LinkPlayDevice :=
  {| _name := name; _host := host; _lfmapi := lfm_api_key;
     ps := {| _state := STATE_UNKNOWN; _volume := PNone; _muted := PNone;
              _source := None; _sound_mode := None; _shuffle := None;
              _seek_position := None; _duration := None;
              _position_updated_at := None; _media_title := None;
              _media_artist := None; _media_album := None;
              _media_image_url := PNone; _media_uri := None |};
     _lpapi_data := None; _lfmapi_data := None; _first_update := true |}.

(** Attribute assignment [self.<attr> = v], one function per attribute. *)
Module Assign.
Definition state (v : ha_state) (s : PlayerState) : PlayerState :=
  mk_ps v (_volume s) (_muted s) (_source s) (_sound_mode s) (_shuffle s)
    (_seek_position s) (_duration s) (_position_updated_at s)
    (_media_title s) (_media_artist s) (_media_album s)
    (_media_image_url s) (_media_uri s).
Definition volume (v : pyval) (s : PlayerState) : PlayerState :=
  mk_ps (_state s) v (_muted s) (_source s) (_sound_mode s) (_shuffle s)
    (_seek_position s) (_duration s) (_position_updated_at s)
    (_media_title s) (_media_artist s) (_media_album s)
    (_media_image_url s) (_media_uri s).
Definition muted (v : pyval) (s : PlayerState) : PlayerState :=
  mk_ps (_state s) (_volume s) v (_source s) (_sound_mode s) (_shuffle s)
    (_seek_position s) (_duration s) (_position_updated_at s)
    (_media_title s) (_media_artist s) (_media_album s)
    (_media_image_url s) (_media_uri s).
Definition source (v : option pystr) (s : PlayerState) : PlayerState :=
  mk_ps (_state s) (_volume s) (_muted s) v (_sound_mode s) (_shuffle s)
    (_seek_position s) (_duration s) (_position_updated_at s)
    (_media_title s) (_media_artist s) (_media_album s)
    (_media_image_url s) (_media_uri s).
Definition sound_mode (v : option pystr) (s : PlayerState) : PlayerState :=
  mk_ps (_state s) (_volume s) (_muted s) (_source s) v (_shuffle s)
    (_seek_position s) (_duration s) (_position_updated_at s)
    (_media_title s) (_media_artist s) (_media_album s)
    (_media_image_url s) (_media_uri s).
Definition shuffle (v : option bool) (s : PlayerState) : PlayerState :=
  mk_ps (_state s) (_volume s) (_muted s) (_source s) (_sound_mode s) v
    (_seek_position s) (_duration s) (_position_updated_at s)
    (_media_title s) (_media_artist s) (_media_album s)
    (_media_image_url s) (_media_uri s).
Definition seek_position (v : option Z) (s : PlayerState) : PlayerState :=
  mk_ps (_state s) (_volume s) (_muted s) (_source s) (_sound_mode s)
    (_shuffle s) v (_duration s) (_position_updated_at s)
    (_media_title s) (_media_artist s) (_media_album s)
    (_media_image_url s) (_media_uri s).
Definition duration (v : option Z) (s : PlayerState) : PlayerState :=
  mk_ps (_state s) (_volume s) (_muted s) (_source s) (_sound_mode s)
    (_shuffle s) (_seek_position s) v (_position_updated_at s)
    (_media_title s) (_media_artist s) (_media_album s)
    (_media_image_url s) (_media_uri s).
Definition position_updated_at (v : option Z) (s : PlayerState) : PlayerState :=
  mk_ps (_state s) (_volume s) (_muted s) (_source s) (_sound_mode s)
    (_shuffle s) (_seek_position s) (_duration s) v (_media_title s)
    (_media_artist s) (_media_album s) (_media_image_url s)
    (_media_uri s).
Definition media_title (v : option pystr) (s : PlayerState) : PlayerState :=
  mk_ps (_state s) (_volume s) (_muted s) (_source s) (_sound_mode s)
    (_shuffle s) (_seek_position s) (_duration s)
    (_position_updated_at s) v (_media_artist s) (_media_album s)
    (_media_image_url s) (_media_uri s).
Definition media_artist (v : option pystr) (s : PlayerState) : PlayerState :=
  mk_ps (_state s) (_volume s) (_muted s) (_source s) (_sound_mode s)
    (_shuffle s) (_seek_position s) (_duration s)
    (_position_updated_at s) (_media_title s) v (_media_album s)
    (_media_image_url s) (_media_uri s).
Definition media_album (v : option pystr) (s : PlayerState) : PlayerState :=
  mk_ps (_state s) (_volume s) (_muted s) (_source s) (_sound_mode s)
    (_shuffle s) (_seek_position s) (_duration s)
    (_position_updated_at s) (_media_title s) (_media_artist s) v
    (_media_image_url s) (_media_uri s).
Definition media_image_url (v : pyval) (s : PlayerState) : PlayerState :=
  mk_ps (_state s) (_volume s) (_muted s) (_source s) (_sound_mode s)
    (_shuffle s) (_seek_position s) (_duration s)
    (_position_updated_at s) (_media_title s) (_media_artist s)
    (_media_album s) v (_media_uri s).
Definition media_uri (v : option pystr) (s : PlayerState) : PlayerState :=
  mk_ps (_state s) (_volume s) (_muted s) (_source s) (_sound_mode s)
    (_shuffle s) (_seek_position s) (_duration s)
    (_position_updated_at s) (_media_title s) (_media_artist s)
    (_media_album s) (_media_image_url s) v.
End Assign.

(* ================================================================== *)
(** ** Methods as state transformers *)

(** The device together with everything done to the outside so far. *)
Record Machine : Type := mk_machine {
  dev : LinkPlayDevice;
  trace : list event
}.

Definition M (A : Type) : Type := Machine -> result A * Machine.

Definition ret {A : Type} (a : A) : M A := fun m => (Ok a, m).

Definition raise {A : Type} (e : exn) : M A := fun m => (Raise e, m).

Definition bind {A B : Type} (c : M A) (k : A -> M B) : M B :=
  fun m => match c m with
           | (Ok a, m') => k a m'
           | (Raise e, m') => (Raise e, m')
           end.

(** An expression that may raise but touches nothing. *)
Definition lift {A : Type} (r : result A) : M A := fun m => (r, m).

(** [try: body / except <caught>: handler] *)
Definition try_except {A : Type} (body : M A) (caught : exn -> bool)
    (handler : M A) : M A :=
  fun m => match body m with
           | (Raise e, m') => if caught e then handler m' else (Raise e, m')
           | done => done
           end.

Definition field {A : Type} (f : LinkPlayDevice -> A) : M A :=
  fun m => (Ok (f (dev m)), m).

Definition attr {A : Type} (f : PlayerState -> A) : M A :=
  fun m => (Ok (f (ps (dev m))), m).

Definition modify (f : LinkPlayDevice -> LinkPlayDevice) : M unit :=
  fun m => (Ok tt, mk_machine (f (dev m)) (trace m)).

Definition with_ps (p : PlayerState) (d : LinkPlayDevice) : LinkPlayDevice :=
  mk_dev (_name d) (_host d) (_lfmapi d) p
         (_lpapi_data d) (_lfmapi_data d) (_first_update d).

Definition assign (f : PlayerState -> PlayerState) : M unit :=
  modify (fun d => with_ps (f (ps d)) d).

(** A call of a method that only reads [self]. *)
Definition reads {A : Type} (f : LinkPlayDevice -> result A) : M A :=
  fun m => (f (dev m), m).

Definition set_lpapi_data (v : option pystr) : M unit :=
  modify (fun d => mk_dev (_name d) (_host d) (_lfmapi d) (ps d)
                          v (_lfmapi_data d) (_first_update d)).

Definition set_lfmapi_data (v : option pystr) : M unit :=
  modify (fun d => mk_dev (_name d) (_host d) (_lfmapi d) (ps d)
                          (_lpapi_data d) v (_first_update d)).

Definition set_first_update (v : bool) : M unit :=
  modify (fun d => mk_dev (_name d) (_host d) (_lfmapi d) (ps d)
                          (_lpapi_data d) (_lfmapi_data d) v).

Definition emit (e : event) : M unit :=
  fun m => (Ok tt, mk_machine (dev m) (trace m ++ [e])).

Definition log (lvl : level) (fmt : string) : M unit := emit (Log lvl fmt).

Declare Scope py_scope.
Delimit Scope py_scope with py.
Notation "x <- c ;; k" := (bind c (fun x => k))
  (at level 61, c at next level, right associativity) : py_scope.
Notation "c ;; k" := (bind c (fun _ => k))
  (at level 61, right associativity) : py_scope.
Open Scope py_scope.

(** Running a method on a device, from an empty trace. *)
Definition run {A : Type} (c : M A) (d : LinkPlayDevice)
    : result A * Machine :=
  c (mk_machine d []).


Section Methods.

Variable lib : Lib.

(** ["http://{0}/httpapi.asp?command={1}".format(host, cmd)] *)
Definition resource (host cmd : pystr) : pystr :=
  str "http://" ++ host ++ str "/httpapi.asp?command=" ++ cmd.

(** [LinkPlayRestData.call('GET', cmd)] *)
Definition lpapi_call (w : World) (cmd : pystr) : M unit :=
  set_lpapi_data None ;;
  host <- field _host ;;
  log DEBUG "Updating from %s" ;;
  emit (HttpGet (resource host cmd)) ;;
  match send w (resource host cmd) with
  | Some text => set_lpapi_data (Some text)
  | None =>
      log ERROR "Error fetching data: %s from %s failed with %s" ;;
      set_lpapi_data None
  end.

(** ["{0}{1}&{2}&api_key={3}&format=json".format(LASTFM_API_BASE, cmd,
    params, api_key)] *)
Definition lfm_resource (cmd params api_key : pystr) : pystr :=
  LASTFM_API_BASE ++ cmd ++ str "&" ++ params
  ++ str "&api_key=" ++ api_key ++ str "&format=json".

(** [LastFMRestData.call('GET', cmd, params)] on [self._lfmapi]; calling a
    method of [None] raises [AttributeError]. *)
Definition lfmapi_call (w : World) (cmd params : pystr) : M unit :=
  lfmapi <- field _lfmapi ;;
  match lfmapi with
  | None => raise AttributeError
  | Some api_key =>
      set_lfmapi_data None ;;
      log DEBUG "Updating from %s" ;;
      emit (HttpGet (lfm_resource cmd params api_key)) ;;
      match send w (lfm_resource cmd params api_key) with
      | Some text => set_lfmapi_data (Some text)
      | None =>
          log ERROR "Error fetching data: %s from %s failed with %s" ;;
          set_lfmapi_data None
      end
  end.

(** [int(int(v) / 1000)] *)
Definition ms_to_s (v : pyval) : result Z :=
  match PyNum.int v with
  | Ok n => match PyNum.truediv n 1000 with
            | Ok q => PyNum.int_of_float q
            | Raise e => Raise e
            end
  | Raise e => Raise e
  end.

(** [_is_playing_new_track]; [or] evaluates its right operand only when the
    left one is false.  [status['Title']] is the field as the device sent
    it. *)
Definition _is_playing_new_track (self : LinkPlayDevice) (status : pyval)
    : result bool :=
  match PyOps.getitem status (str "totlen") with
  | Raise e => Raise e
  | Ok totlen =>
      match ms_to_s totlen with
      | Raise e => Raise e
      | Ok seconds =>
          if match _duration (ps self) with
             | Some d => negb (seconds =? d)
             | None => true
             end
          then Ok true
          else match PyOps.getitem status (str "Title") with
               | Raise e => Raise e
               | Ok title =>
                   Ok (PyOps.ne_optstr title (_media_title (ps self)))
               end
      end
  end.

(** [_is_playing_mp3]; [self._media_uri] is a [str] or still [None]. *)
Definition _is_playing_mp3 (self : LinkPlayDevice) : result bool :=
  match _media_uri (ps self) with
  | None => Raise AttributeError
  | Some uri =>
      Ok (negb (PyStr.find uri (str ".mp3") (PyStr.len uri - 4) =? -1))
  end.

(** [_is_playing_spotify] *)
Definition _is_playing_spotify (self : LinkPlayDevice) : bool :=
  PyOps.optstr_eq (_media_title (ps self)) (str "Unknown")
  && PyOps.optstr_eq (_media_artist (ps self)) (str "Unknown").

(** [_update_from_id3]: only [URLError] is caught. *)
Definition _update_from_id3 (w : World) : M unit :=
  try_except
    (media_uri <- attr _media_uri ;;
     match media_uri with
     | None => raise TypeError
     | Some uri =>
         emit (UrlRetrieve uri) ;;
         filename <- lift (urlretrieve w uri) ;;
         emit (Eyed3Load filename) ;;
         audiofile <- lift (eyed3_load w filename) ;;
         match audiofile with
         | Some (Some tag) =>
             assign (Assign.media_title (tag_title tag)) ;;
             assign (Assign.media_artist (tag_artist tag)) ;;
             assign (Assign.media_album (tag_album tag))
         | Some None | None => raise AttributeError
         end
     end)
    (fun e => match e with URLError => true | _ => false end)
    (assign (Assign.media_title None) ;;
     assign (Assign.media_artist None) ;;
     assign (Assign.media_album None)).

(** [_get_lastfm_coverart]: [json.loads] runs before the [try]; the handler
    catches [ValueError] and [KeyError]. *)
Definition _get_lastfm_coverart (w : World) : M unit :=
  media_artist <- attr _media_artist ;;
  media_title <- attr _media_title ;;
  lfmapi_call w (str "track.getInfo")
    (str "artist=" ++ PyOps.format_opt media_artist
     ++ str "&track=" ++ PyOps.format_opt media_title) ;;
  data <- field _lfmapi_data ;;
  lfmdata <- match data with
             | None => raise TypeError
             | Some text => match json_loads lib text with
                            | Some v => ret v
                            | None => raise ValueError
                            end
             end ;;
  try_except
    (track <- lift (PyOps.getitem lfmdata (str "track")) ;;
     album <- lift (PyOps.getitem track (str "album")) ;;
     image <- lift (PyOps.getitem album (str "image")) ;;
     large <- lift (PyOps.getitem_int image 2) ;;
     text <- lift (PyOps.getitem large (str "#text")) ;;
     assign (Assign.media_image_url text))
    (fun e => match e with ValueError | KeyError => true | _ => false end)
    (assign (Assign.media_image_url PNone)).

(** [str(bytearray.fromhex(player_status[key]).decode())] *)
Definition hex_field (player_status : pyval) (key : string) : result pystr :=
  match PyOps.getitem player_status (str key) with
  | Ok hex => PyOps.hex_decode hex
  | Raise e => Raise e
  end.

(** The block of [update] under the comment "Update variables that changes
    during playback of a track". *)
Definition update_playback (w : World) (player_status : pyval) : M unit :=
  vol <- lift (PyOps.getitem player_status (str "vol")) ;;
  assign (Assign.volume vol) ;;
  mute <- lift (PyOps.getitem player_status (str "mute")) ;;
  assign (Assign.muted mute) ;;
  curpos <- lift (PyOps.getitem player_status (str "curpos")) ;;
  seconds <- lift (ms_to_s curpos) ;;
  assign (Assign.seek_position (Some seconds)) ;;
  assign (Assign.position_updated_at (Some (utcnow w))) ;;
  uri <- lift (hex_field player_status "iuri") ;;
  assign (Assign.media_uri (Some uri)) ;;
  status <- lift (PyOps.getitem player_status (str "status")) ;;
  state <- lift (PyOps.dict_get
                   [(str "stop", STATE_PAUSED); (str "play", STATE_PLAYING);
                    (str "pause", STATE_PAUSED)] status STATE_UNKNOWN) ;;
  assign (Assign.state state) ;;
  mode <- lift (PyOps.getitem player_status (str "mode")) ;;
  source <- lift (PyOps.dict_get SOURCES_MAP mode (str "WiFi")) ;;
  assign (Assign.source (Some source)) ;;
  eq <- lift (PyOps.getitem player_status (str "eq")) ;;
  sound_mode <- lift (PyOps.dict_get (map (fun kv => (fst kv, Some (snd kv)))
                                          SOUND_MODES) eq None) ;;
  assign (Assign.sound_mode sound_mode) ;;
  loop <- lift (PyOps.getitem player_status (str "loop")) ;;
  assign (Assign.shuffle (Some (PyOps.eq_str loop (str "2")))).

(** The chain [if self._is_playing_spotify(): ... elif ... elif ...] that
    ends the new-track block. *)
Definition classify_track (w : World) (player_status : pyval) : M unit :=
  spotify <- reads (fun self => Ok (_is_playing_spotify self)) ;;
  if spotify then
    assign (Assign.media_title (Some (str "Spotify"))) ;;
    assign (Assign.media_artist (Some (str "Spotify")))
  else
    totlen <- lift (PyOps.getitem player_status (str "totlen")) ;;
    if PyOps.eq_str totlen (str "0") then
      assign (Assign.media_album (Some (str ""))) ;;
      assign (Assign.media_image_url PNone)
    else
      mp3 <- reads _is_playing_mp3 ;;
      if mp3 then
        _update_from_id3 w ;;
        lfmapi <- field _lfmapi ;;
        media_title <- attr _media_title ;;
        match lfmapi, media_title with
        | Some _, Some _ => _get_lastfm_coverart w
        | _, _ => assign (Assign.media_image_url PNone)
        end
      else ret tt.

(** The body of [if self._is_playing_new_track(player_status):]. *)
Definition update_new_track (w : World) (player_status : pyval) : M unit :=
  title <- lift (hex_field player_status "Title") ;;
  assign (Assign.media_title (Some title)) ;;
  artist <- lift (hex_field player_status "Artist") ;;
  assign (Assign.media_artist (Some artist)) ;;
  classify_track w player_status.

(** The body of [if isinstance(player_status, dict):]. *)
Definition update_status (w : World) (player_status : pyval) : M unit :=
  first_update <- field _first_update ;;
  (if first_update then set_first_update false else ret tt) ;;
  update_playback w player_status ;;
  new_track <- reads (fun self => _is_playing_new_track self player_status) ;;
  (if new_track then update_new_track w player_status else ret tt) ;;
  totlen <- lift (PyOps.getitem player_status (str "totlen")) ;;
  seconds <- lift (ms_to_s totlen) ;;
  assign (Assign.duration (Some seconds)).

(** [update] *)
Definition update (w : World) : M bool :=
  lpapi_call w (str "getPlayerStatus") ;;
  value <- field _lpapi_data ;;
  match value with
  | None => ret false
  | Some text =>
      player_status <-
        match json_loads lib text with
        | Some v => ret v
        | None =>
            log WARNING "REST result could not be parsed as JSON" ;;
            log DEBUG "Erroneous JSON: %s" ;;
            ret PNone
        end ;;
      match player_status with
      | PDict _ => update_status w player_status
      | _ => log WARNING "JSON result was not a dictionary"
      end ;;
      ret true
  end.

(** The lines every command ends with: read [self._lpapi.data] and warn
    unless it is the text "OK". *)
Definition expect_ok (fmt : string) : M unit :=
  value <- field _lpapi_data ;;
  if PyOps.optstr_eq value (str "OK") then ret tt else log WARNING fmt.

(** [turn_off] *)
Definition turn_off (w : World) : M unit :=
  lpapi_call w (str "getShutdown") ;;
  expect_ok "Failed to power of the device. Got response: %s".

(** [set_volume_level]: [str(round(volume * MAX_VOL))] *)
Definition set_volume_level (w : World) (volume : spec_float) : M unit :=
  percent <- lift (PyNum.round (SFmul PyNum.prec PyNum.emax volume
                                      (PyNum.SF_of_Z MAX_VOL))) ;;
  lpapi_call w (str "setPlayerCmd:vol:" ++ PyStr.of_Z percent) ;;
  expect_ok "Failed to set volume. Got response: %s".

(** [mute_volume] *)
Definition mute_volume (w : World) (mute : bool) : M unit :=
  lpapi_call w (str "setPlayerCmd:mute:"
                ++ PyStr.of_Z (if mute then 1 else 0)) ;;
  expect_ok "Failed to mute/unmute volume. Got response: %s".

(** [media_play] *)
Definition media_play (w : World) : M unit :=
  lpapi_call w (str "setPlayerCmd:play") ;;
  expect_ok "Failed to start playback. Got response: %s".

(** [media_pause] *)
Definition media_pause (w : World) : M unit :=
  lpapi_call w (str "setPlayerCmd:pause") ;;
  expect_ok "Failed to pause playback. Got response: %s".

(** [media_next_track] *)
Definition media_next_track (w : World) : M unit :=
  lpapi_call w (str "setPlayerCmd:next") ;;
  expect_ok "Failed to skip to next track. Got response: %s".

(** [media_previous_track] *)
Definition media_previous_track (w : World) : M unit :=
  lpapi_call w (str "setPlayerCmd:prev") ;;
  expect_ok "Failed to skip to previous track. Got response: %s".

(** [media_seek] *)
Definition media_seek (w : World) (position : spec_float) : M unit :=
  lpapi_call w (str "setPlayerCmd:seek:" ++ float_repr lib position) ;;
  expect_ok "Failed to seek. Got response: %s".

(** [play_media] *)
Definition play_media (w : World) (media_type media_id : pystr) : M unit :=
  if negb (PyStr.eqb media_type (MEDIA_TYPE_MUSIC lib)) then
    log ERROR "Invalid media type %s. Only %s is supported"
  else
    lpapi_call w (str "setPlayerCmd:play:" ++ media_id) ;;
    expect_ok "Failed to play media. Got response: %s".

(** [select_source] *)
Definition select_source (w : World) (source : pystr) : M unit :=
  let source := if PyStr.eqb source (str "MicroSD") then str "udisk"
                else PyStr.lower source in
  lpapi_call w (str "setPlayerCmd:switchmode:" ++ source) ;;
  expect_ok "Failed to select source. Got response: %s".

(** [l.index(x)] *)
Fixpoint index_of (l : list pystr) (x : pystr) : option nat :=
  match l with
  | [] => None
  | y :: l' => if PyStr.eqb y x then Some O else option_map S (index_of l' x)
  end.

(** [select_sound_mode]: [index] raises [ValueError] on an unknown name. *)
Definition select_sound_mode (w : World) (sound_mode : pystr) : M unit :=
  i <- match index_of (map snd SOUND_MODES) sound_mode with
       | Some i => ret i
       | None => raise ValueError
       end ;;
  mode <- match nth_error (map fst SOUND_MODES) i with
          | Some k => ret k
          | None => raise IndexError
          end ;;
  lpapi_call w (str "setPlayerCmd:equalizer:" ++ mode) ;;
  expect_ok "Failed to set sound mode. Got response: %s".

(** [set_shuffle] *)
Definition set_shuffle (w : World) (shuffle : bool) : M unit :=
  let mode := if shuffle then str "2" else str "0" in
  lpapi_call w (str "setPlayerCmd:loopmode:" ++ mode) ;;
  expect_ok "Failed to change shuffle mode. Got response: %s".

(** [preset_button] *)
Definition preset_button (w : World) (preset : Z) : M unit :=
  lpapi_call w (str "IOSimuKeyIn:" ++ PyStr.zfill (PyStr.of_Z preset) 3) ;;
  expect_ok "Failed to press preset button %s. Got response: %s".

(** The control surface: one constructor per command method. *)
Inductive command : Type :=
| TurnOff
| SetVolumeLevel (volume : spec_float)
| MuteVolume (mute : bool)
| MediaPlay
| MediaPause
| MediaNextTrack
| MediaPreviousTrack
| MediaSeek (position : spec_float)
| PlayMedia (media_type media_id : pystr)
| SelectSource (source : pystr)
| SelectSoundMode (sound_mode : pystr)
| SetShuffle (shuffle : bool)
| PresetButton (preset : Z).

Definition perform (w : World) (c : command) : M unit :=
  match c with
  | TurnOff => turn_off w
  | SetVolumeLevel volume => set_volume_level w volume
  | MuteVolume mute => mute_volume w mute
  | MediaPlay => media_play w
  | MediaPause => media_pause w
  | MediaNextTrack => media_next_track w
  | MediaPreviousTrack => media_previous_track w
  | MediaSeek position => media_seek w position
  | PlayMedia media_type media_id => play_media w media_type media_id
  | SelectSource source => select_source w source
  | SelectSoundMode sound_mode => select_sound_mode w sound_mode
  | SetShuffle shuffle => set_shuffle w shuffle
  | PresetButton preset => preset_button w preset
  end.

End Methods.

(** The public properties. *)
Module Property.

(** [volume_level]: [int(self._volume) / MAX_VOL] *)
Definition volume_level (d : LinkPlayDevice) : result spec_float :=
  match PyNum.int (_volume (ps d)) with
  | Ok n => PyNum.truediv n MAX_VOL
  | Raise e => Raise e
  end.

(** [is_volume_muted]: [bool(int(self._muted))] *)
Definition is_volume_muted (d : LinkPlayDevice) : result bool :=
  match PyNum.int (_muted (ps d)) with
  | Ok n => Ok (negb (n =? 0))
  | Raise e => Raise e
  end.

Definition state (d : LinkPlayDevice) := _state (ps d).
Definition source (d : LinkPlayDevice) := _source (ps d).
Definition sound_mode (d : LinkPlayDevice) := _sound_mode (ps d).
Definition media_position (d : LinkPlayDevice) := _seek_position (ps d).
Definition media_duration (d : LinkPlayDevice) := _duration (ps d).
Definition media_position_updated_at (d : LinkPlayDevice) :=
  _position_updated_at (ps d).
Definition shuffle (d : LinkPlayDevice) := _shuffle (ps d).
Definition media_title (d : LinkPlayDevice) := _media_title (ps d).
Definition media_artist (d : LinkPlayDevice) := _media_artist (ps d).
Definition media_album_name (d : LinkPlayDevice) := _media_album (ps d).
Definition media_image_url (d : LinkPlayDevice) := _media_image_url (ps d).

End Property.

(* ================================================================== *)
(** ** The listings, the platform set-up and the service handler *)

Definition SOURCES : list (pystr * pystr) :=
  [(str "wifi", str "WiFi"); (str "line-in", str "Line-in");
   (str "bluetooth", str "Bluetooth"); (str "optical", str "Optical");
   (str "udisk", str "MicroSD")].

Definition SERVICE_PRESET_BUTTON : pystr := str "linkplay_preset_button".

(** [SERVICE_TO_METHOD]: the service name and the method it maps to. *)
Inductive method : Type := Preset_button.

Definition SERVICE_TO_METHOD : list (pystr * method) :=
  [(SERVICE_PRESET_BUTTON, Preset_button)].

Module Listing.

(** [a <= b] on two [str]s: code points compared from the left, a proper
    prefix first. *)
Fixpoint leb (a b : pystr) : bool :=
  match a, b with
  | [], _ => true
  | _ :: _, [] => false
  | x :: a', y :: b' => (x <? y)%N || (N.eqb x y && leb a' b')
  end.

Fixpoint insert (x : pystr) (l : list pystr) : list pystr :=
  match l with
  | [] => [x]
  | y :: l' => if leb x y then x :: l else y :: insert x l'
  end.

(** [sorted(l)] on a list of [str]s. *)
Definition sorted (l : list pystr) : list pystr :=
  fold_right insert [] l.

(** [source_list]: [sorted(list(self._source_list.values()))], where
    [_source_list] is the copy of [SOURCES] made by the constructor and
    never written again. *)
Definition source_list : list pystr := sorted (map snd SOURCES).

(** [sound_mode_list] *)
Definition sound_mode_list : list pystr := sorted (map snd SOUND_MODES).

End Listing.

(** An entity the platform knows: the device object and the [entity_id]
    attribute the entity platform gave it ([None] before it did). *)
Record Player : Type := mk_player {
  entity_id : option pystr;
  device : LinkPlayDevice
}.

(** What the module touches of [hass]: [hass.data.get(DATA_LINKPLAY)], the
    service names handed to [hass.services.register], the entities handed
    to [add_entities] (by name), and what the devices did to the
    outside. *)
Record Hass : Type := mk_hass {
  data_linkplay : option (list Player);
  registered : list pystr;
  added : list pystr;
  wire : list event
}.

Section Platform.

Variable lib : Lib.

(** [setup_platform]; [given_id] is the [entity_id] the entity platform
    gives the new entity.  [PlatformNotReady] is an exception of
    [homeassistant.exceptions]. *)
Definition setup_platform (w : World) (name host : pystr)
    (lfm_api_key given_id : option pystr) (hass : Hass)
    : result unit * Hass :=
  let players := match data_linkplay hass with
                 | Some l => l
                 | None => []
                 end in
  let services := registered hass ++ map fst SERVICE_TO_METHOD in
  let linkplay := init name host lfm_api_key in
  let (r, m) := run (update lib w) linkplay in
  let attempted := mk_hass (Some players) services (added hass)
                           (wire hass ++ trace m) in
  match r with
  | Raise e => (Raise e, attempted)
  | Ok false => (Raise (ExternalError "PlatformNotReady"), attempted)
  | Ok true =>
      (Ok tt,
       mk_hass (Some (players ++ [mk_player given_id (dev m)])) services
               (added hass ++ [name]) (wire hass ++ trace m))
  end.

(** The call of the method named by [method['method']] with [params] as
    its keyword arguments: the one method takes the keyword [preset] and
    nothing else. *)
Definition call_method (w : World) (f : method) (params : list (pystr * Z))
    : M unit :=
  match f, params with
  | Preset_button, [(k, preset)] =>
      if PyStr.eqb k (str "preset") then preset_button w preset
      else raise TypeError
  | Preset_button, _ => raise TypeError
  end.

(** The loop [for player in target_players]: [players] are the entities of
    [hass.data[DATA_LINKPLAY]] in order, a target is one whose
    [entity_id] is in [entity_ids]; a raise ends the loop. *)
Fixpoint call_targets (w : World) (f : method) (params : list (pystr * Z))
    (entity_ids : list pystr) (players : list Player) (log : list event)
    : result unit * list Player * list event :=
  match players with
  | [] => (Ok tt, [], log)
  | p :: rest =>
      if match entity_id p with
         | Some id => existsb (PyStr.eqb id) entity_ids
         | None => false
         end
      then
        let (r, m) := call_method w f params (mk_machine (device p) log) in
        let p' := mk_player (entity_id p) (dev m) in
        match r with
        | Ok _ =>
            let '(r', rest', log') :=
              call_targets w f params entity_ids rest (trace m) in
            (r', p' :: rest', log')
        | Raise e => (Raise e, p' :: rest, trace m)
        end
      else
        let '(r', rest', log') :=
          call_targets w f params entity_ids rest log in
        (r', p :: rest', log')
  end.

(** [_service_handler]: [entity_ids] is [service.data.get(ATTR_ENTITY_ID)]
    ([None] when the key is absent), [params] the other items of
    [service.data].  Without entity ids [target_players] is [None], and
    iterating over [None] raises [TypeError]. *)
Definition _service_handler (w : World) (service : pystr)
    (entity_ids : option (list pystr)) (params : list (pystr * Z))
    (hass : Hass) : result unit * Hass :=
  match assoc service SERVICE_TO_METHOD with
  | None => (Ok tt, hass)
  | Some f =>
      match entity_ids with
      | Some (id :: ids) =>
          match data_linkplay hass with
          | None => (Raise KeyError, hass)
          | Some players =>
              let '(r, players', log) :=
                call_targets w f params (id :: ids) players (wire hass) in
              (r, mk_hass (Some players') (registered hass) (added hass) log)
          end
      | Some [] | None => (Raise TypeError, hass)
      end
  end.

End Platform.

(* ================================================================== *)
(** ** Concrete devices, payloads and worlds *)

Module Demo.

Definition quoted (s : string) : pystr := [34%N] ++ str s ++ [34%N].

(** The members of a flat JSON object whose values are strings. *)
Fixpoint members (fields : list (string * string)) : pystr :=
  match fields with
  | [] => []
  | (k, v) :: rest =>
      quoted k ++ str ": " ++ quoted v
      ++ match rest with [] => [] | _ => str ", " ++ members rest end
  end.

(** The JSON text [{"k": "v", ...}] and the dict it denotes. *)
Definition object_text (fields : list (string * string)) : pystr :=
  str "{" ++ members fields ++ str "}".

Definition dict_items (fields : list (string * string))
    : list (pystr * pyval) :=
  map (fun kv => (str (fst kv), PStr (str (snd kv)))) fields.

Definition object_value (fields : list (string * string)) : pyval :=
  PDict (dict_items fields).

(** Lowercase hex of an ASCII text, as the device sends its text fields. *)
Definition hexlify (s : string) : string :=
  let digit (n : N) : ascii :=
    ascii_of_N (if (n <? 10)%N then n + 48 else n + 87)%N in
  string_of_list_ascii
    (flat_map (fun c => let n := N_of_ascii c in
                        [digit (n / 16)%N; digit (n mod 16)%N])
              (list_ascii_of_string s)).

(** A status payload of the device, its three text fields given as sent. *)
Definition status_raw (totlen iuri_hex title_hex artist_hex : string)
    : list (string * string) :=
  [("vol", "50"); ("mute", "0"); ("curpos", "1000"); ("totlen", totlen);
   ("iuri", iuri_hex); ("Title", title_hex); ("Artist", artist_hex);
   ("status", "play"); ("mode", "10"); ("eq", "0"); ("loop", "0")]%string.

Definition status (totlen iuri title artist : string)
    : list (string * string) :=
  status_raw totlen (hexlify iuri) (hexlify title) (hexlify artist).

(** The payload of "Foo" by "Bar", 180 s, played from a file. *)
Definition foo_status : list (string * string) :=
  status "180000" "http://nas/a.mp3" "Foo" "Bar".

Definition foo_uri : pystr := str "http://nas/a.mp3".

(** Two answers of the cover-art service: no such track, and a track whose
    album lists no image. *)
Definition not_found : list (string * string) :=
  [("error", "6"); ("message", "Track not found")]%string.

Definition no_image_text : pystr :=
  str "{" ++ quoted "track" ++ str ": {" ++ quoted "album" ++ str ": {"
  ++ quoted "image" ++ str ": []}}}".

Definition no_image_value : pyval :=
  PDict [(str "track",
          PDict [(str "album", PDict [(str "image", PList [])])])].

(** [json.loads] on the documents of the examples; any other text is not
    JSON. *)
Definition documents : list (pystr * pyval) :=
  map (fun f => (object_text f, object_value f))
    [foo_status;
     status "181000" "http://nas/a.mp3" "Foo" "Bar";
     status "180000" "http://nas/a.mp3" "Unknown" "Unknown";
     status "0" "http://nas/a.mp3" "Foo" "Bar";
     status "180000" "http://nas/stream" "Foo" "Bar";
     status_raw "180000" "zz" (hexlify "Foo") (hexlify "Bar");
     not_found]
  ++ [(str "[]", PList []); (no_image_text, no_image_value)].

Definition lib : Lib :=
  {| json_loads := fun text => assoc text documents;
     float_repr := fun f => match f with
                            | S754_zero false => str "0.0"
                            | _ => str "30.0"
                            end;
     MEDIA_TYPE_MUSIC := str "music" |}.

Definition host : pystr := str "10.0.0.9".

Definition poll_url : pystr := resource host (str "getPlayerStatus").

(** A world: what the device answers to the status request (every other
    request gets [other]), and the answers of the tag collaborators. *)
Definition world (status_answer other : option pystr)
    (retrieved : result pystr)
    (loaded : result (option (option id3tag))) : World :=
  {| send := fun url => if PyStr.eqb url poll_url then status_answer
                        else other;
     urlretrieve := fun _ => retrieved;
     eyed3_load := fun _ => loaded;
     utcnow := 1000 |}.

Definition tags_foo : id3tag :=
  {| tag_title := Some (str "Foo"); tag_artist := Some (str "Bar");
     tag_album := Some (str "Baz") |}.

(** The device polls fine and the tags of the file are read. *)
Definition fine (fields : list (string * string)) : World :=
  world (Some (object_text fields)) None
        (Ok (str "/tmp/tmpa1")) (Ok (Some (Some tags_foo))).

(** A device that was just constructed, without and with an API key of the
    cover-art service. *)
Definition fresh : LinkPlayDevice := init (str "Kitchen") host None.

Definition keyed : LinkPlayDevice :=
  init (str "Kitchen") host (Some (str "KEY")).

(** The cover-art request for "Foo" by "Bar". *)
Definition lookup : pystr :=
  lfm_resource (str "track.getInfo") (str "artist=Bar&track=Foo") (str "KEY").

(** The device polls fine, the tags are read, and the cover-art service
    answers [answer]. *)
Definition covered (answer : option pystr) : World :=
  world (Some (object_text foo_status)) answer
        (Ok (str "/tmp/tmpa1")) (Ok (Some (Some tags_foo))).

(** A device that played "Foo" (180 s) at the previous poll. *)
Definition played_foo : LinkPlayDevice :=
  with_ps (Assign.duration (Some 180)
             (Assign.media_title (Some (str "Foo")) (ps fresh)))
          fresh.

(** A device that does not answer at all. *)
Definition silent : World :=
  world None None (Raise URLError) (Raise URLError).

(** The URLs a run requested, in order. *)
Definition requested {A : Type} (r : result A * Machine) : list pystr :=
  flat_map (fun e => match e with HttpGet url => [url] | _ => [] end)
           (trace (snd r)).

(** The floats 0.285, 0.5, 0.005 and 1.0. *)
Definition f0_285 : spec_float := S754_finite false 5134103575202365 (-54).
Definition f0_5 : spec_float := S754_finite false 4503599627370496 (-53).
Definition f0_005 : spec_float := S754_finite false 5764607523034235 (-60).
Definition f1_0 : spec_float := S754_finite false 4503599627370496 (-52).

End Demo.

(* ================================================================== *)
(** ** Vocabulary of the statements *)

(** The URL [update] requests. *)
Definition status_url (d : LinkPlayDevice) : pystr :=
  resource (_host d) (str "getPlayerStatus").

(** The response to the status request carries no status object: there is
    no response, or its text is not JSON, or the JSON is not an object. *)
Definition no_status_object (lib : Lib) (raw : option pystr) : bool :=
  match raw with
  | None => true
  | Some text => match json_loads lib text with
                 | Some (PDict _) => false
                 | _ => true
                 end
  end.

Definition received (raw : option pystr) : bool :=
  match raw with Some _ => true | None => false end.

(** The machine on which the status block starts: the response stored,
    the first-update flag cleared. *)
Definition polled (d : LinkPlayDevice) (text : pystr) : Machine :=
  mk_machine
    (mk_dev (_name d) (_host d) (_lfmapi d) (ps d) (Some text)
            (_lfmapi_data d) false)
    [Log DEBUG "Updating from %s"; HttpGet (status_url d)].

(** A poll that gets a status object which decodes and is classified as a
    new track against the previous state [d]; [uri], [title] and [artist]
    are its three text fields, decoded. *)
Definition new_track_poll (lib : Lib) (w : World) (d : LinkPlayDevice)
    (text : pystr) (st : list (pystr * pyval)) (uri title artist : pystr)
    : Prop :=
  send w (status_url d) = Some text
  /\ json_loads lib text = Some (PDict st)
  /\ fst (run (update_playback w (PDict st)) d) = Ok tt
  /\ _is_playing_new_track d (PDict st) = Ok true
  /\ hex_field (PDict st) "iuri" = Ok uri
  /\ hex_field (PDict st) "Title" = Ok title
  /\ hex_field (PDict st) "Artist" = Ok artist.

(** How [update] ends once the new-track block is over. *)
Definition finish (seconds : Z) (r : result unit * Machine)
    : result bool * Machine :=
  match r with
  | (Ok _, m) =>
      (Ok true,
       mk_machine (with_ps (Assign.duration (Some seconds) (ps (dev m))) (dev m))
                  (trace m))
  | (Raise e, m) => (Raise e, m)
  end.


(** The device after the polls [ws], with what each [update] returned. *)
Fixpoint polls (lib : Lib) (ws : list World) (d : LinkPlayDevice)
    : list (result bool) * LinkPlayDevice :=
  match ws with
  | [] => ([], d)
  | w :: ws' =>
      let (r, m) := run (update lib w) d in
      let (rs, d') := polls lib ws' (dev m) in
      (r :: rs, d')
  end.



(* ================================================================== *)
(** ** Strings: equality and the suffix computed by [find] *)

Lemma pystr_eqb_refl (a : pystr) : PyStr.eqb a a = true.
Proof.
  induction a as [|x a IH]; simpl; [reflexivity|].
  now rewrite N.eqb_refl, IH.
Qed.

Lemma pystr_eqb_eq (a b : pystr) : PyStr.eqb a b = true <-> a = b.
Proof.
  split; [|intros ->; apply pystr_eqb_refl].
  revert b; induction a as [|x a IH]; intros [|y b]; simpl; try easy.
  intros H; apply andb_true_iff in H as [Hx Hr].
  apply N.eqb_eq in Hx; subst; f_equal; auto.
Qed.

Lemma pystr_eqb_neq (a b : pystr) : PyStr.eqb a b = false <-> a <> b.
Proof.
  rewrite <- pystr_eqb_eq; destruct (PyStr.eqb a b); split; congruence.
Qed.

Lemma prefixb_same_length (sub t : pystr) :
  List.length t = List.length sub -> PyStr.prefixb sub t = PyStr.eqb sub t.
Proof.
  revert t; induction sub as [|x sub IH]; intros [|y t]; simpl; try easy.
  intros H; injection H as H; now rewrite IH.
Qed.

Lemma find_from_short (sub t : pystr) (base : Z) :
  (List.length t < List.length sub)%nat -> PyStr.find_from sub t base = -1.
Proof.
  revert base; induction t as [|y t IH]; intros base H.
  - destruct sub; simpl in *; [lia | reflexivity].
  - simpl PyStr.find_from.
    assert (PyStr.prefixb sub (y :: t) = false) as ->.
    { clear IH; revert H; generalize (y :: t) as u.
      induction sub as [|x sub IH']; intros u H; [simpl in H; lia|].
      destruct u as [|z u]; simpl; [reflexivity|].
      rewrite IH' by (simpl in H; lia); apply andb_false_r. }
    apply IH; simpl in H; lia.
Qed.

(** [s.find(sub, len(s) - len(sub)) != -1] holds exactly when [s] ends with
    the non-empty [sub]. *)
Lemma find_at_end (s sub : pystr) :
  sub <> [] ->
  negb (PyStr.find s sub (PyStr.len s - PyStr.len sub) =? -1) = true
  <-> PyStr.endswith s sub.
Proof.
  intros Hne. unfold PyStr.find, PyStr.len, PyStr.endswith.
  assert (0 < List.length sub)%nat as Hk by (destruct sub; simpl; [easy | lia]).
  destruct (Nat.le_gt_cases (List.length sub) (List.length s)) as [Hle | Hlt].
  - replace (Z.of_nat (List.length s) - Z.of_nat (List.length sub) <? 0)
      with false by (symmetry; apply Z.ltb_ge; lia).
    replace (Z.of_nat (List.length s) <?
             Z.of_nat (List.length s) - Z.of_nat (List.length sub))
      with false by (symmetry; apply Z.ltb_ge; lia).
    replace (Z.to_nat (Z.of_nat (List.length s) - Z.of_nat (List.length sub)))
      with (List.length s - List.length sub)%nat by lia.
    set (n := (List.length s - List.length sub)%nat).
    assert (List.length (skipn n s) = List.length sub) as Hlen
      by (rewrite length_skipn; lia).
    destruct (skipn n s) as [|y t] eqn:Hskip;
      [simpl in Hlen; lia|].
    simpl PyStr.find_from.
    rewrite (prefixb_same_length sub (y :: t)) by exact Hlen.
    destruct (PyStr.eqb sub (y :: t)) eqn:Heq.
    + apply pystr_eqb_eq in Heq. split; intros _.
      * exists (firstn n s). rewrite Heq, <- Hskip. symmetry; apply firstn_skipn.
      * apply negb_true_iff, Z.eqb_neq; lia.
    + rewrite find_from_short by (simpl in Hlen; lia).
      split; [discriminate|].
      intros [front Hs]. apply pystr_eqb_neq in Heq. exfalso; apply Heq.
      assert (List.length front = n) as Hf.
      { subst n. rewrite Hs, length_app. lia. }
      rewrite Hs in Hskip. rewrite <- Hf in Hskip.
      rewrite skipn_app, skipn_all, Nat.sub_diag in Hskip. simpl in Hskip.
      now symmetry.
  - split.
    + replace (Z.of_nat (List.length s) - Z.of_nat (List.length sub) <? 0)
        with true by (symmetry; apply Z.ltb_lt; lia).
      destruct (Z.of_nat (List.length s) <? _); [discriminate|].
      rewrite find_from_short; [discriminate|].
      rewrite length_skipn; lia.
    + intros [front Hs]. rewrite Hs, length_app in Hlt. lia.
Qed.

(* ================================================================== *)
(** ** Properties of the methods *)

Section Properties.
Variable lib : Lib.

Ltac exec :=
  cbv beta iota delta
    [run update lpapi_call bind lift ret raise attr field reads assign modify
     emit log set_lpapi_data set_lfmapi_data set_first_update];
  cbn [fst snd dev ps trace _name _host _lfmapi _lpapi_data _lfmapi_data
       _first_update with_ps app].

Lemma update_no_status_object (w : World) (d : LinkPlayDevice) :
  no_status_object lib (send w (status_url d)) = true ->
  fst (run (update lib w) d) = Ok (received (send w (status_url d)))
  /\ ps (dev (snd (run (update lib w) d))) = ps d
  /\ _host (dev (snd (run (update lib w) d))) = _host d.
Proof.
  unfold no_status_object. exec. fold (status_url d).
  destruct (send w (status_url d)) as [text|]; exec.
  - destruct (json_loads lib text) as [v|]; exec.
    + destruct v; exec; now repeat split.
    + now repeat split.
  - now repeat split.
Qed.


Lemma update_object (w : World) (d : LinkPlayDevice) (text : pystr)
    (st : list (pystr * pyval)) :
  send w (status_url d) = Some text ->
  json_loads lib text = Some (PDict st) ->
  run (update lib w) d =
  ((update_playback w (PDict st) ;;
    new_track <- reads (fun self => _is_playing_new_track self (PDict st)) ;;
    (if new_track then update_new_track lib w (PDict st) else ret tt) ;;
    totlen <- lift (PyOps.getitem (PDict st) (str "totlen")) ;;
    seconds <- lift (ms_to_s totlen) ;;
    assign (Assign.duration (Some seconds))) ;;
   ret true) (polled d text).
Proof.
  intros Hsend Hjson. exec. fold (status_url d). rewrite Hsend. exec.
  rewrite Hjson. exec. unfold update_status. exec.
  destruct (_first_update d); reflexivity.
Qed.

(** Whether the playback block succeeds depends on the payload only; when
    it does, it leaves the track metadata and the duration alone. *)
Lemma update_playback_transfer (w : World) (v : pyval) (m1 m2 : Machine) :
  fst (update_playback w v m1) = Ok tt ->
  exists p uri,
    update_playback w v m2 = (Ok tt, mk_machine (with_ps p (dev m2)) (trace m2))
    /\ hex_field v "iuri" = Ok uri
    /\ _media_uri p = Some uri
    /\ _media_title p = _media_title (ps (dev m2))
    /\ _media_artist p = _media_artist (ps (dev m2))
    /\ _media_album p = _media_album (ps (dev m2))
    /\ _media_image_url p = _media_image_url (ps (dev m2))
    /\ _duration p = _duration (ps (dev m2)).
Proof.
  cbv beta iota delta
    [update_playback bind lift ret raise attr field reads assign modify].
  cbn [fst snd dev ps trace _name _host _lfmapi _lpapi_data _lfmapi_data
       _first_update with_ps].
  repeat match goal with
         | |- context [match ?r with Ok _ => _ | Raise _ => _ end] =>
             destruct r; [|cbn [fst]; discriminate]
         end.
  intros _. eexists. eexists. split; [reflexivity|]. cbn. repeat split.
Qed.

Lemma new_track_ext (d1 d2 : LinkPlayDevice) (v : pyval) :
  _duration (ps d1) = _duration (ps d2) ->
  _media_title (ps d1) = _media_title (ps d2) ->
  _is_playing_new_track d1 v = _is_playing_new_track d2 v.
Proof. unfold _is_playing_new_track. now intros -> ->. Qed.

Lemma new_track_seconds (d : LinkPlayDevice) (v : pyval) (b : bool) :
  _is_playing_new_track d v = Ok b ->
  exists totlen seconds,
    PyOps.getitem v (str "totlen") = Ok totlen /\ ms_to_s totlen = Ok seconds.
Proof.
  unfold _is_playing_new_track.
  destruct (PyOps.getitem v (str "totlen")) as [totlen|]; [|discriminate].
  destruct (ms_to_s totlen) as [seconds|] eqn:Hsec; [|discriminate].
  intros _. now exists totlen, seconds.
Qed.

(** A new-track poll runs the classification chain on the previous
    metadata with title and artist replaced by the decoded fields, then
    stores the duration. *)
Lemma update_new_track_path (w : World) (d : LinkPlayDevice) (text : pystr)
    (st : list (pystr * pyval)) (uri title artist : pystr) :
  new_track_poll lib w d text st uri title artist ->
  exists p totlen seconds,
    PyOps.getitem (PDict st) (str "totlen") = Ok totlen
    /\ ms_to_s totlen = Ok seconds
    /\ _media_uri p = Some uri
    /\ _media_title p = Some title
    /\ _media_artist p = Some artist
    /\ _media_album p = _media_album (ps d)
    /\ _media_image_url p = _media_image_url (ps d)
    /\ run (update lib w) d =
       finish seconds
         (classify_track lib w (PDict st)
            (mk_machine (with_ps p (dev (polled d text)))
                        (trace (polled d text)))).
Proof.
  intros (Hsend & Hjson & Hplay & Hnew & Huri & Htitle & Hartist).
  destruct (update_playback_transfer w (PDict st) _ (polled d text) Hplay)
    as (p & uri' & Hrun & Huri' & Hp_uri & Hp_title & Hp_artist & Hp_album
        & Hp_image & Hp_duration).
  rewrite Huri in Huri'. injection Huri' as <-.
  destruct (new_track_seconds _ _ _ Hnew) as (totlen & seconds & Htot & Hsec).
  exists (Assign.media_artist (Some artist)
            (Assign.media_title (Some title) p)), totlen, seconds.
  do 7 (split; [solve [assumption | reflexivity | cbn; congruence]|]).
  rewrite (update_object w d text st Hsend Hjson).
  unfold bind at 1 2. rewrite Hrun.
  unfold bind at 1, reads at 1. cbn [dev].
  rewrite (new_track_ext _ d (PDict st)) by (cbn [ps with_ps]; assumption).
  rewrite Hnew.
  unfold update_new_track.
  cbv beta iota delta [bind lift ret assign modify].
  rewrite Htitle, Hartist, Htot, Hsec.
  cbn [fst snd dev ps trace with_ps _name _host _lfmapi _lpapi_data
       _lfmapi_data _first_update].
  match goal with
  | |- _ = finish _ (classify_track _ _ _ ?m2) =>
      match goal with
      | |- context [classify_track _ _ _ ?m1] => change m1 with m2
      end;
      destruct (classify_track lib w (PDict st) m2) as [[[]|e] m']
  end; reflexivity.
Qed.

Lemma spotify_true (self : LinkPlayDevice) :
  _media_title (ps self) = Some (str "Unknown") ->
  _media_artist (ps self) = Some (str "Unknown") ->
  _is_playing_spotify self = true.
Proof. unfold _is_playing_spotify. now intros -> ->. Qed.

Lemma spotify_false (self : LinkPlayDevice) (title artist : pystr) :
  _media_title (ps self) = Some title ->
  _media_artist (ps self) = Some artist ->
  title <> str "Unknown" \/ artist <> str "Unknown" ->
  _is_playing_spotify self = false.
Proof.
  unfold _is_playing_spotify. intros -> -> [H | H]; cbn [PyOps.optstr_eq];
    apply pystr_eqb_neq in H; rewrite H; [reflexivity | apply andb_false_r].
Qed.

(** C7.  Spotify heuristic: when a poll is classified as a new track and
    its title and artist fields both decode to "Unknown", [update] returns
    [True] with title and artist both "Spotify", and the only request made
    is the status request (no tag fetch, no cover-art lookup), whatever
    the duration and the track URI are. *)
Theorem spotify_heuristic (w : World) (d : LinkPlayDevice) (text : pystr)
    (st : list (pystr * pyval)) (uri : pystr) :
  new_track_poll lib w d text st uri (str "Unknown") (str "Unknown") ->
  exists m,
    run (update lib w) d = (Ok true, m)
    /\ _media_title (ps (dev m)) = Some (str "Spotify")
    /\ _media_artist (ps (dev m)) = Some (str "Spotify")
    /\ trace m = [Log DEBUG "Updating from %s"; HttpGet (status_url d)].
Proof.
  intros H.
  destruct (update_new_track_path w d text st uri _ _ H)
    as (p & totlen & seconds & _ & _ & _ & Htitle & Hartist & _ & _ & ->).
  cbv beta iota delta
    [classify_track finish bind lift ret raise attr field reads assign modify].
  cbn [fst snd dev ps trace polled with_ps _name _host _lfmapi _lpapi_data
       _lfmapi_data _first_update].
  rewrite spotify_true by assumption.
  eexists; split; [reflexivity|]. cbn. auto.
Qed.

(** C8.  Radio heuristic: when a poll is classified as a new track, title
    and artist are not both "Unknown" and the [totlen] field is the string
    "0", [update] returns [True] with the album set to the empty string
    and the image URL cleared, title and artist as decoded, and no request
    besides the status request; the track URI is arbitrary, so one ending
    in ".mp3" changes nothing. *)
Theorem radio_heuristic (w : World) (d : LinkPlayDevice) (text : pystr)
    (st : list (pystr * pyval)) (uri title artist : pystr) :
  new_track_poll lib w d text st uri title artist ->
  title <> str "Unknown" \/ artist <> str "Unknown" ->
  PyOps.getitem (PDict st) (str "totlen") = Ok (PStr (str "0")) ->
  exists m,
    run (update lib w) d = (Ok true, m)
    /\ _media_album (ps (dev m)) = Some (str "")
    /\ _media_image_url (ps (dev m)) = PNone
    /\ _media_title (ps (dev m)) = Some title
    /\ _media_artist (ps (dev m)) = Some artist
    /\ trace m = [Log DEBUG "Updating from %s"; HttpGet (status_url d)].
Proof.
  intros H Hunknown Hzero.
  destruct (update_new_track_path w d text st uri _ _ H)
    as (p & totlen & seconds & _ & _ & _ & Htitle & Hartist & _ & _ & ->).
  cbv beta iota delta
    [classify_track finish bind lift ret raise attr field reads assign modify].
  cbn [fst snd dev ps trace polled with_ps _name _host _lfmapi _lpapi_data
       _lfmapi_data _first_update].
  rewrite (spotify_false _ title artist) by assumption.
  rewrite Hzero.
  eexists; split; [reflexivity|]. cbn. auto.
Qed.













Lemma eq_str_true (v : pyval) (s : pystr) :
  PyOps.eq_str v s = true -> v = PStr s.
Proof.
  destruct v; cbn; try discriminate. intros H.
  apply pystr_eqb_eq in H. now subst.
Qed.

Lemma mp3_endswith (self : LinkPlayDevice) (uri : pystr) :
  _media_uri (ps self) = Some uri ->
  exists b, _is_playing_mp3 self = Ok b
            /\ (b = true <-> PyStr.endswith uri (str ".mp3")).
Proof.
  intros H. unfold _is_playing_mp3. rewrite H. eexists. split; [reflexivity|].
  change 4 with (PyStr.len (str ".mp3")). apply find_at_end. discriminate.
Qed.



(** C4, as amended.  When the tag helper runs for a new track (neither
    Spotify nor radio, URI ending in ".mp3") and fetching the file raises
    [URLError], title, artist and album all become [None], the image URL
    is cleared, and [update] returns [True]. *)
Theorem id3_fetch_failure (w : World) (d : LinkPlayDevice) (text : pystr)
    (st : list (pystr * pyval)) (uri title artist : pystr) :
  new_track_poll lib w d text st uri title artist ->
  title <> str "Unknown" \/ artist <> str "Unknown" ->
  PyOps.getitem (PDict st) (str "totlen") <> Ok (PStr (str "0")) ->
  PyStr.endswith uri (str ".mp3") ->
  urlretrieve w uri = Raise URLError ->
  exists m,
    run (update lib w) d = (Ok true, m)
    /\ In (UrlRetrieve uri) (trace m)
    /\ _media_title (ps (dev m)) = None
    /\ _media_artist (ps (dev m)) = None
    /\ _media_album (ps (dev m)) = None
    /\ _media_image_url (ps (dev m)) = PNone.
Proof.
  intros H Hunknown Hradio Hends Hfetch.
  destruct (update_new_track_path w d text st uri _ _ H)
    as (p & totlen & seconds & Htot & _ & Huri & Htitle & Hartist & _ & _
        & ->).
  assert (PyOps.eq_str totlen (str "0") = false) as Hzero.
  { destruct (PyOps.eq_str totlen (str "0")) eqn:E; [|reflexivity].
    apply eq_str_true in E. congruence. }
  cbv beta iota delta
    [classify_track finish bind lift ret raise attr field reads assign modify].
  cbn [fst snd dev ps trace polled with_ps _name _host _lfmapi _lpapi_data
       _lfmapi_data _first_update].
  rewrite (spotify_false _ title artist) by assumption.
  rewrite Htot, Hzero.
  match goal with |- context [_is_playing_mp3 ?self] =>
    destruct (mp3_endswith self uri Huri) as (b & -> & Hb)
  end.
  apply Hb in Hends as ->.
  unfold _update_from_id3, try_except.
  cbv beta iota delta [bind attr lift emit assign modify raise field].
  cbn [fst snd dev ps trace with_ps _lfmapi].
  rewrite Huri, Hfetch.
  cbn [fst snd dev ps trace with_ps _lfmapi Assign.media_album
       Assign.media_artist Assign.media_title _media_title].
  destruct (_lfmapi d); (eexists; split; [reflexivity|]); cbn; auto 7.
Qed.




Lemma polls_no_status_object (ws : list World) (d : LinkPlayDevice) :
  Forall (fun w => no_status_object lib (send w (status_url d)) = true) ws ->
  fst (polls lib ws d)
  = map (fun w => Ok (received (send w (status_url d)))) ws
  /\ ps (snd (polls lib ws d)) = ps d.
Proof.
  revert d; induction ws as [|w ws IH]; intros d Hall; [now split|].
  inversion Hall as [|? ? Hw Hws]; subst.
  destruct (update_no_status_object w d Hw) as (Hr & Hps & Hhost).
  cbn [polls]. destruct (run (update lib w) d) as [r m]; cbn [fst snd] in *.
  assert (status_url (dev m) = status_url d) as Hurl
    by (unfold status_url; now rewrite Hhost).
  rewrite <- Hurl in Hws. destruct (IH (dev m) Hws) as [IHr IHps].
  destruct (polls lib ws (dev m)) as [rs d']; cbn [fst snd map] in *.
  rewrite Hurl in IHr. split; congruence.
Qed.

(** C10.  As long as no poll has received a JSON object (each poll got no
    response, a text that is not JSON, or JSON that is not an object; the
    polls that got a response returned [True]), the stored volume and mute
    flag are still [None]: [volume_level] and [is_volume_muted] raise
    [TypeError], while the other media properties return their unset
    value. *)
Theorem volume_unset_until_status (name host : pystr) (key : option pystr)
    (ws : list World) :
  let d0 := init name host key in
  Forall (fun w => no_status_object lib (send w (status_url d0)) = true) ws ->
  let d := snd (polls lib ws d0) in
  fst (polls lib ws d0)
  = map (fun w => Ok (received (send w (status_url d0)))) ws
  /\ Property.volume_level d = Raise TypeError
  /\ Property.is_volume_muted d = Raise TypeError
  /\ Property.source d = None
  /\ Property.media_title d = None
  /\ Property.media_artist d = None
  /\ Property.media_album_name d = None
  /\ Property.media_image_url d = PNone
  /\ Property.media_position d = None
  /\ Property.media_duration d = None
  /\ Property.shuffle d = None.
Proof.
  intros d0 Hall d.
  destruct (polls_no_status_object ws d0 Hall) as [Hr Hps].
  split; [exact Hr|].
  unfold Property.volume_level, Property.is_volume_muted, Property.source,
    Property.media_title, Property.media_artist, Property.media_album_name,
    Property.media_image_url, Property.media_position,
    Property.media_duration, Property.shuffle.
  subst d. rewrite Hps. cbn. repeat split.
Qed.

(** With the duration unchanged, the verdict of [_is_playing_new_track] is
    whether the title field as sent (hex text) differs from the stored
    title. *)
Lemma new_track_compares_sent_title (self : LinkPlayDevice) (status : pyval)
    (totlen : pyval) (seconds : Z) (sent : pystr) :
  PyOps.getitem status (str "totlen") = Ok totlen ->
  ms_to_s totlen = Ok seconds ->
  _duration (ps self) = Some seconds ->
  PyOps.getitem status (str "Title") = Ok (PStr sent) ->
  _is_playing_new_track self status
  = Ok (negb (PyOps.optstr_eq (_media_title (ps self)) sent)).
Proof.
  intros Htot Hsec Hdur Htitle. unfold _is_playing_new_track.
  rewrite Htot, Hsec, Hdur, Htitle, Z.eqb_refl. cbn.
  destruct (_media_title (ps self)) as [stored|]; cbn; [|reflexivity].
  f_equal. f_equal. destruct (PyStr.eqb sent stored) eqn:E.
  - apply pystr_eqb_eq in E. subst. now rewrite pystr_eqb_refl.
  - apply pystr_eqb_neq in E. symmetry. apply pystr_eqb_neq. congruence.
Qed.

End Properties.

(* ================================================================== *)
(** ** The methods on concrete polls *)

Module Cases.
Import Demo.

(** The numeric conversions on a few values: truncation of the float
    quotient, rounding half to even of the float product. *)
Example seconds_of_milliseconds :
  map ms_to_s [PStr (str "180999"); PStr (str " 1_000 "); PInt (-500);
               PStr (str "1e3"); PNone]
  = [Ok 180; Ok 1; Ok 0; Raise ValueError; Raise TypeError].
Proof. reflexivity. Qed.

Example volume_percentages :
  map (fun v => PyNum.round (SFmul PyNum.prec PyNum.emax v
                                   (PyNum.SF_of_Z MAX_VOL)))
      [f0_285; f0_5; f0_005; f1_0]
  = [Ok 28; Ok 50; Ok 0; Ok 100].
Proof. reflexivity. Qed.

(** The commands as they go to the device. *)
Example commands_on_the_wire :
  map (fun c => requested (run (perform lib silent c) fresh))
      [SetVolumeLevel f0_285; PresetButton 5; SelectSource (str "MicroSD");
       SelectSource (str "Bluetooth"); SelectSoundMode (str "Jazz");
       SetShuffle true; MuteVolume true; TurnOff]
  = map (fun cmd => [resource host (str cmd)])
      ["setPlayerCmd:vol:28"; "IOSimuKeyIn:005";
       "setPlayerCmd:switchmode:udisk"; "setPlayerCmd:switchmode:bluetooth";
       "setPlayerCmd:equalizer:3"; "setPlayerCmd:loopmode:2";
       "setPlayerCmd:mute:1"; "getShutdown"]%string.
Proof. reflexivity. Qed.

(** An unknown source code falls back to "WiFi", an unknown sound-mode
    code to [None]. *)
Example unknown_codes :
  PyOps.dict_get SOURCES_MAP (PStr (str "99")) (str "WiFi") = Ok (str "WiFi")
  /\ PyOps.dict_get (map (fun kv => (fst kv, Some (snd kv))) SOUND_MODES)
                    (PStr (str "9")) None = Ok None.
Proof. split; reflexivity. Qed.

(** One poll of a freshly constructed device. *)
Example first_poll :
  let m := snd (run (update lib (fine foo_status)) fresh) in
  let p := ps (dev m) in
  (_state p, _volume p, _muted p, _seek_position p, _duration p)
  = (STATE_PLAYING, PStr (str "50"), PStr (str "0"), Some 1, Some 180)
  /\ (_source p, _sound_mode p, _shuffle p, _position_updated_at p)
     = (Some (str "WiFi"), Some (str "Normal"), Some false, Some 1000)
  /\ (_media_title p, _media_artist p, _media_album p, _media_uri p)
     = (Some (str "Foo"), Some (str "Bar"), Some (str "Baz"), Some foo_uri)
  /\ Property.volume_level (dev m) = Ok f0_5
  /\ Property.is_volume_muted (dev m) = Ok false.
Proof. vm_compute. repeat split. Qed.

(** C1.  A device that played "Foo" (duration 180) receives a status whose
    duration decodes to 180 s and whose title field decodes to "Foo": the
    track is unchanged, yet [_is_playing_new_track] answers [True] (the
    field is compared as sent, "466f6f") and [update] fetches the tags of
    the file again.  A status of 181 s is classified as new. *)
Theorem same_track_flagged_new :
  let st := object_value foo_status in
  let later := object_value (status "181000" "http://nas/a.mp3" "Foo" "Bar") in
  let r := run (update lib (fine foo_status)) played_foo in
  _duration (ps played_foo) = Some 180
  /\ _media_title (ps played_foo) = Some (str "Foo")
  /\ json_loads lib (object_text foo_status) = Some st
  /\ ms_to_s (PStr (str "180000")) = Ok 180
  /\ PyOps.getitem st (str "Title") = Ok (PStr (str "466f6f"))
  /\ hex_field st "Title" = Ok (str "Foo")
  /\ _is_playing_new_track played_foo st = Ok true
  /\ fst r = Ok true
  /\ In (UrlRetrieve foo_uri) (trace (snd r))
  /\ _is_playing_new_track played_foo later = Ok true.
Proof. vm_compute. repeat split; auto 10. Qed.

(** C2.  The same payload applied twice.  After the first application the
    device holds duration 180 and title "Foo", which is what the payload
    decodes to; the second application still takes the new-track path and
    fetches the tags again, and when that fetch fails the second time,
    title, artist and album differ from the first result. *)
Theorem repeated_poll_refetches :
  let first := run (update lib (fine foo_status)) fresh in
  let d1 := dev (snd first) in
  let again := run (update lib (fine foo_status)) d1 in
  let offline := world (Some (object_text foo_status)) None
                       (Raise URLError) (Raise URLError) in
  let second := run (update lib offline) d1 in
  fst first = Ok true
  /\ _duration (ps d1) = Some 180
  /\ _media_title (ps d1) = Some (str "Foo")
  /\ _media_artist (ps d1) = Some (str "Bar")
  /\ _media_album (ps d1) = Some (str "Baz")
  /\ ms_to_s (PStr (str "180000")) = Ok 180
  /\ hex_field (object_value foo_status) "Title" = Ok (str "Foo")
  /\ fst again = Ok true
  /\ In (UrlRetrieve foo_uri) (trace (snd again))
  /\ fst second = Ok true
  /\ In (UrlRetrieve foo_uri) (trace (snd second))
  /\ _media_title (ps (dev (snd second))) = None
  /\ _media_artist (ps (dev (snd second))) = None
  /\ _media_album (ps (dev (snd second))) = None.
Proof. vm_compute. repeat split; auto 10. Qed.



(** C4, counterexample.  A new track played from a file whose tags cannot
    be read ([eyed3.load] returns an audio file without a tag, or raises
    an error of its own): the failure is raised out of [update], and title
    and artist keep the values decoded from the device. *)
Lemma untagged_file_escapes_update :
  let untagged := world (Some (object_text foo_status)) None
                        (Ok (str "/tmp/tmpa1")) (Ok (Some None)) in
  let broken := world (Some (object_text foo_status)) None
                      (Ok (str "/tmp/tmpa1"))
                      (Raise (ExternalError "eyed3.Error")) in
  let r := run (update lib untagged) fresh in
  new_track_poll lib untagged fresh (object_text foo_status)
    (dict_items foo_status) foo_uri (str "Foo") (str "Bar")
  /\ In (UrlRetrieve foo_uri) (trace (snd r))
  /\ In (Eyed3Load (str "/tmp/tmpa1")) (trace (snd r))
  /\ fst r = Raise AttributeError
  /\ _media_title (ps (dev (snd r))) = Some (str "Foo")
  /\ _media_artist (ps (dev (snd r))) = Some (str "Bar")
  /\ fst (run (update lib broken) fresh) = Raise (ExternalError "eyed3.Error")
  /\ ~ (fst r = Ok true
        /\ _media_title (ps (dev (snd r))) = None
        /\ _media_artist (ps (dev (snd r))) = None
        /\ _media_album (ps (dev (snd r))) = None).
Proof.
  unfold new_track_poll. vm_compute. repeat split; auto 10.
  intros [H _]. discriminate H.
Qed.

(** C4, witness: the file of a new track cannot be fetched. *)
Lemma id3_fetch_failure_witness :
  let w := world (Some (object_text foo_status)) None
                 (Raise URLError) (Raise URLError) in
  new_track_poll lib w fresh (object_text foo_status) (dict_items foo_status)
    foo_uri (str "Foo") (str "Bar")
  /\ PyStr.endswith foo_uri (str ".mp3")
  /\ urlretrieve w foo_uri = Raise URLError
  /\ exists m,
       run (update lib w) fresh = (Ok true, m)
       /\ In (UrlRetrieve foo_uri) (trace m)
       /\ _media_title (ps (dev m)) = None
       /\ _media_artist (ps (dev m)) = None
       /\ _media_album (ps (dev m)) = None
       /\ _media_image_url (ps (dev m)) = PNone.
Proof.
  intros w.
  assert (new_track_poll lib w fresh (object_text foo_status)
            (dict_items foo_status) foo_uri (str "Foo") (str "Bar")) as Hpoll
    by (unfold new_track_poll; now vm_compute).
  assert (PyStr.endswith foo_uri (str ".mp3")) as Hends
    by (exists (str "http://nas/a"); reflexivity).
  split; [exact Hpoll|]. split; [exact Hends|]. split; [reflexivity|].
  apply (id3_fetch_failure lib w fresh (object_text foo_status)
           (dict_items foo_status) foo_uri (str "Foo") (str "Bar") Hpoll).
  - left. discriminate.
  - vm_compute. discriminate.
  - exact Hends.
  - reflexivity.
Defined.

(** C5.  The cover-art lookup runs for a new track with tags "Foo" by
    "Bar" and an API key.  When the service answers a text that is not
    JSON, [json.loads] raises [ValueError] before the [try] is entered and
    the error leaves [update]; no response at all raises [TypeError], an
    image list with fewer than three entries [IndexError].  Only a missing
    key clears the image URL. *)
Theorem unparseable_cover_art_escapes_update :
  let page := run (update lib (covered (Some (str "<html>")))) keyed in
  let down := run (update lib (covered None)) keyed in
  let short := run (update lib (covered (Some no_image_text))) keyed in
  let absent := run (update lib (covered (Some (object_text not_found)))) keyed in
  json_loads lib (str "<html>") = None
  /\ In (HttpGet lookup) (trace (snd page))
  /\ send (covered (Some (str "<html>"))) lookup = Some (str "<html>")
  /\ fst page = Raise ValueError
  /\ fst down = Raise TypeError
  /\ json_loads lib no_image_text = Some no_image_value
  /\ fst short = Raise IndexError
  /\ fst absent = Ok true
  /\ _media_image_url (ps (dev (snd absent))) = PNone.
Proof. vm_compute. repeat split; auto 10. Qed.


(** C7, witness: title and artist "Unknown", a URI ending in ".mp3". *)
Lemma spotify_heuristic_witness :
  let unknown := status "180000" "http://nas/a.mp3" "Unknown" "Unknown" in
  let w := fine unknown in
  new_track_poll lib w fresh (object_text unknown) (dict_items unknown)
    foo_uri (str "Unknown") (str "Unknown")
  /\ exists m,
       run (update lib w) fresh = (Ok true, m)
       /\ _media_title (ps (dev m)) = Some (str "Spotify")
       /\ _media_artist (ps (dev m)) = Some (str "Spotify")
       /\ trace m = [Log DEBUG "Updating from %s"; HttpGet (status_url fresh)].
Proof.
  intros unknown w.
  assert (new_track_poll lib w fresh (object_text unknown)
            (dict_items unknown) foo_uri (str "Unknown") (str "Unknown"))
    as Hpoll by (unfold new_track_poll; now vm_compute).
  split; [exact Hpoll|].
  exact (spotify_heuristic lib w fresh (object_text unknown)
           (dict_items unknown) foo_uri Hpoll).
Defined.

(** C8, witness: [totlen] "0", a URI ending in ".mp3". *)
Lemma radio_heuristic_witness :
  let radio := status "0" "http://nas/a.mp3" "Foo" "Bar" in
  let w := fine radio in
  new_track_poll lib w fresh (object_text radio) (dict_items radio)
    foo_uri (str "Foo") (str "Bar")
  /\ PyStr.endswith foo_uri (str ".mp3")
  /\ exists m,
       run (update lib w) fresh = (Ok true, m)
       /\ _media_album (ps (dev m)) = Some (str "")
       /\ _media_image_url (ps (dev m)) = PNone
       /\ _media_title (ps (dev m)) = Some (str "Foo")
       /\ _media_artist (ps (dev m)) = Some (str "Bar")
       /\ trace m = [Log DEBUG "Updating from %s"; HttpGet (status_url fresh)].
Proof.
  intros radio w.
  assert (new_track_poll lib w fresh (object_text radio)
            (dict_items radio) foo_uri (str "Foo") (str "Bar"))
    as Hpoll by (unfold new_track_poll; now vm_compute).
  split; [exact Hpoll|].
  split; [exists (str "http://nas/a"); reflexivity|].
  apply (radio_heuristic lib w fresh (object_text radio)
           (dict_items radio) foo_uri (str "Foo") (str "Bar") Hpoll).
  - left. discriminate.
  - reflexivity.
Defined.


(** C10, witness: three polls, none of which brings a status object. *)
Lemma volume_unset_until_status_witness :
  let ws := [silent;
             world (Some (str "[]")) None (Raise URLError) (Raise URLError);
             world (Some (str "<html>")) None (Raise URLError)
                   (Raise URLError)] in
  Forall (fun w => no_status_object lib (send w (status_url fresh)) = true) ws
  /\ fst (polls lib ws fresh) = [Ok false; Ok true; Ok true]
  /\ Property.volume_level (snd (polls lib ws fresh)) = Raise TypeError
  /\ Property.is_volume_muted (snd (polls lib ws fresh)) = Raise TypeError.
Proof.
  intros ws.
  assert (Forall (fun w => no_status_object lib (send w (status_url fresh))
                           = true) ws) as Hall
    by (repeat constructor).
  split; [exact Hall|].
  destruct (volume_unset_until_status lib (str "Kitchen") host None ws Hall)
    as (Hr & Hvol & Hmute & _).
  split; [exact Hr|]. split; [exact Hvol | exact Hmute].
Defined.

End Cases.
